(** * ctxdb: database access through a context.Context

    A shallow embedding of package [ctxdb] (src/ctxdb.go) and of the small
    part of Go's [context], [errors] and [database/sql] packages it touches.

    - Interface values are options: [None] is the nil interface.
    - A [context.Context] is the immutable chain the [context] package
      builds; [Context] holds the non-nil ones.
    - Calls that leave the package (BeginTx, the work function, Commit,
      Rollback, ExecContext, ...) act on an abstract world [W] through a
      [Driver]; every such call made by the package's own code is
      appended to a call log, so that "which calls, how often, in which
      order" can be stated.
    - A method call through a nil interface panics; [outcome] records it.
    - The work function and the collaborator's methods are taken to
      return.  [Tx] has no defer and no recover: a panic inside one of
      them unwinds through [Tx] and is outside the statements below.
    - [Rollback] is a package variable in Go; it is read here as the value
      it is initialised with. *)

From Stdlib Require Import String List Bool Arith Lia.
Import ListNotations.
Open Scope string_scope.
Open Scope list_scope.

Set Implicit Arguments.

(* ================================================================== *)
(** ** Go's [error] interface *)

(** Dynamic values an [error] can hold.  Pointers carry their address, so
    two [errors.New] results with the same text are different values. *)
Inductive errorValue : Type :=
| rollback                                   (* rollback{} : type rollback struct{} *)
| errorString (p : nat) (s : string)         (* *errors.errorString, from errors.New *)
| wrapError (p : nat) (msg : string) (err : errorValue)
                                             (* *fmt.wrapError, from fmt.Errorf with %w *)
| foreignError (ty p : nat) (msg : string).  (* a value of some other error type *)

(** [error] is an interface: [nil] or a dynamic value. *)
Definition error : Type := option errorValue.
Definition nil_error : error := None.

(** func (r rollback) Error() string, and the Error methods of the others. *)
Definition Error (e : errorValue) : string :=
  match e with
  | rollback => "rolling back"
  | errorString _ s => s
  | wrapError _ msg _ => msg
  | foreignError _ _ msg => msg
  end.

Definition errorValue_eq_dec (a b : errorValue) : {a = b} + {a <> b}.
Proof. decide equality; first [apply Nat.eq_dec | apply string_dec]. Defined.

(** Go's [==] on two [error] interface values: same dynamic type and equal
    dynamic value (for a pointer, the same address). *)
Definition error_eqb (a b : error) : bool :=
  match a, b with
  | None, None => true
  | Some x, Some y => if errorValue_eq_dec x y then true else false
  | _, _ => false
  end.

Definition isNil (e : error) : bool :=
  match e with None => true | Some _ => false end.

(** var Rollback error = rollback{} *)
Definition Rollback : error := Some rollback.

(** errMissingDB and errCantTx: two [errors.New] allocations. *)
Definition errMissingDB : error :=
  Some (errorString 1 "missing Databaser in context").
Definition errCantTx : error :=
  Some (errorString 2 "can't begin transaction on Databaser in context").

(** [errors.Is]: [==] along the Unwrap chain. *)
Fixpoint errorsIs_value (e : errorValue) (target : error) : bool :=
  error_eqb (Some e) target ||
  match e with
  | wrapError _ _ inner => errorsIs_value inner target
  | _ => false
  end.

Definition errorsIs (err target : error) : bool :=
  match err with
  | None => isNil target
  | Some e => if isNil target then false else errorsIs_value e target
  end.

(* ================================================================== *)
(** ** Handles, [any] and contexts *)

(** Non-nil values of interface [Databaser], by dynamic type.  [*sql.DB]
    and [*sql.Conn] have a BeginTx method, [*sql.Tx] has none; a type of
    the caller's own may or may not. *)
Inductive Handle : Type :=
| sqlDB (p : nat)
| sqlConn (p : nat)
| sqlTx (p : nat)
| customDB (p : nat) (hasBeginTx : bool).

Definition Databaser : Type := option Handle.

(** Values of [interface{}]. *)
Inductive Any : Type :=
| anyNil
| anyDatabaser (h : Handle)      (* dynamic type implements Databaser *)
| anyOther (ty v : nat).         (* dynamic type does not *)

(** Conversion of a [Databaser] to [interface{}]: nil stays nil. *)
Definition toAny (db : Databaser) : Any :=
  match db with
  | None => anyNil
  | Some h => anyDatabaser h
  end.

(** Context keys: [connKey{}] and the keys of other packages. *)
Inductive Key : Type :=
| connKey
| otherKey (n : nat).

Definition Key_eqb (a b : Key) : bool :=
  match a, b with
  | connKey, connKey => true
  | otherKey n, otherKey m => Nat.eqb n m
  | _, _ => false
  end.

Inductive Context : Type :=
| backgroundCtx                                        (* context.Background() *)
| valueCtx (parent : Context) (key : Key) (val : Any)  (* context.WithValue *)
| cancelCtx (parent : Context)                         (* WithCancel, WithTimeout, ... *)
| foreignCtx (value : Key -> Any).                     (* any other implementation *)

(** ctx.Value(key): the nearest binding of [key] in the ancestry. *)
Fixpoint Value (ctx : Context) (key : Key) : Any :=
  match ctx with
  | backgroundCtx => anyNil
  | valueCtx parent k v => if Key_eqb k key then v else Value parent key
  | cancelCtx parent => Value parent key
  | foreignCtx value => value key
  end.

Definition WithValue (parent : Context) (key : Key) (val : Any) : Context :=
  valueCtx parent key val.

(** func With(ctx context.Context, db Databaser) context.Context *)
Definition With (ctx : Context) (db : Databaser) : Context :=
  WithValue ctx connKey (toAny db).

(** The type assertion [v.(Databaser)] in its two-result form. *)
Definition assertDatabaser (v : Any) : Databaser * bool :=
  match v with
  | anyDatabaser h => (Some h, true)
  | _ => (None, false)
  end.

(** func getDB(ctx context.Context) (Databaser, bool) *)
Definition getDB (ctx : Context) : Databaser * bool :=
  assertDatabaser (Value ctx connKey).

(** Whether the dynamic type has the method of interface [beginTxer]. *)
Definition implementsBeginTx (h : Handle) : bool :=
  match h with
  | sqlDB _ | sqlConn _ => true
  | sqlTx _ => false
  | customDB _ b => b
  end.

(** The type assertion [db.(beginTxer)] in its two-result form. *)
Definition assertBeginTxer (db : Databaser) : Databaser * bool :=
  match db with
  | Some h => if implementsBeginTx h then (Some h, true) else (None, false)
  | None => (None, false)
  end.

(* ================================================================== *)
(** ** database/sql *)

Record TxOptions : Type := { Isolation : nat; ReadOnly : bool }.

Definition Result : Type := option nat.    (* sql.Result, an interface *)
Definition Rows : Type := option nat.      (* *sql.Rows *)

(** Modelled from the spec: type [row] and its method [intoDBRow] are used
    by QueryRow but are not in src/ctxdb.go.  The spec describes a
    "deferred-error row object (a result placeholder that only surfaces its
    error when consumed)": [row] stores an error or a row set, and
    [intoDBRow] hands it over as the [*sql.Row] the caller expects. *)
Record row : Type := { err : error; rows : Rows }.

Record sqlRow : Type := { sqlRow_err : error; sqlRow_rows : Rows }.

Definition intoDBRow (r : row) : option sqlRow :=
  Some {| sqlRow_err := err r; sqlRow_rows := rows r |}.

(** What the collaborator does: each method is a transformer of the world
    [W] that returns.  [BeginTx] returns the address of the [*sql.Tx]. *)
Record Driver (W : Type) : Type := {
  sql_ExecContext : Handle -> Context -> string -> list Any -> W -> (Result * error) * W;
  sql_QueryContext : Handle -> Context -> string -> list Any -> W -> (Rows * error) * W;
  sql_QueryRowContext : Handle -> Context -> string -> list Any -> W -> option sqlRow * W;
  sql_BeginTx : Handle -> Context -> option TxOptions -> W -> (nat * error) * W;
  sql_Commit : nat -> W -> error * W;
  sql_Rollback : nat -> W -> error * W;
  sql_RowScan : Rows -> list Any -> W -> error * W
}.

(** The calls the package's code makes, as logged. *)
Inductive Call : Type :=
| CallExecContext (h : Handle) (ctx : Context) (query : string) (args : list Any)
| CallQueryContext (h : Handle) (ctx : Context) (query : string) (args : list Any)
| CallQueryRowContext (h : Handle) (ctx : Context) (query : string) (args : list Any)
| CallBeginTx (h : Handle) (ctx : Context) (opts : option TxOptions)
| CallWork (ctx : Context)
| CallCommit (tx : nat)
| CallRollback (tx : nat)
| CallRowScan (rs : Rows) (dest : list Any).

(* ================================================================== *)
(** ** The state-and-panic monad *)

Inductive outcome (A : Type) : Type :=
| returned (a : A)
| panicked (reason : string).
Arguments panicked {A} reason.

Record State (W : Type) : Type := mkState { world : W; calls : list Call }.

Definition M (W A : Type) : Type := State W -> outcome A * State W.

Definition ret {W A} (a : A) : M W A := fun s => (returned a, s).

Definition panic {W A} (reason : string) : M W A := fun s => (panicked reason, s).

Definition bind {W A B} (m : M W A) (k : A -> M W B) : M W B :=
  fun s =>
    match m s with
    | (returned a, s') => k a s'
    | (panicked r, s') => (panicked r, s')
    end.

(** One outbound call: log it, then let it act on the world. *)
Definition external {W A} (c : Call) (op : W -> A * W) : M W A :=
  fun s =>
    let (a, w') := op (world s) in
    (returned a, {| world := w'; calls := calls s ++ [c] |}).

Declare Scope go_scope.
Delimit Scope go_scope with go.
Notation "x <- m ;; k" := (bind m (fun x => k))
  (at level 61, m at next level, right associativity) : go_scope.
Notation "' p <- m ;; k" := (bind m (fun v => let 'p := v in k))
  (at level 61, p pattern, m at next level, right associativity) : go_scope.
Open Scope go_scope.

Definition nilDeref : string := "invalid memory address or nil pointer dereference".

(* ================================================================== *)
(** ** Package ctxdb *)

Section Ctxdb.
Variable W : Type.
Variable drv : Driver W.

(** Method calls through the interfaces. *)
Definition ExecContext (db : Databaser) ctx query args : M W (Result * error) :=
  match db with
  | Some h => external (CallExecContext h ctx query args) (sql_ExecContext drv h ctx query args)
  | None => panic nilDeref
  end.

Definition QueryContext (db : Databaser) ctx query args : M W (Rows * error) :=
  match db with
  | Some h => external (CallQueryContext h ctx query args) (sql_QueryContext drv h ctx query args)
  | None => panic nilDeref
  end.

Definition QueryRowContext (db : Databaser) ctx query args : M W (option sqlRow) :=
  match db with
  | Some h => external (CallQueryRowContext h ctx query args) (sql_QueryRowContext drv h ctx query args)
  | None => panic nilDeref
  end.

Definition BeginTx (txer : Databaser) ctx opts : M W (nat * error) :=
  match txer with
  | Some h => external (CallBeginTx h ctx opts) (sql_BeginTx drv h ctx opts)
  | None => panic nilDeref
  end.

Definition Commit (tx : nat) : M W error :=
  external (CallCommit tx) (sql_Commit drv tx).

Definition Rollback_ (tx : nat) : M W error :=
  external (CallRollback tx) (sql_Rollback drv tx).

(** The call [f(ctx)] of the work function. *)
Definition call (f : Context -> W -> error * W) (ctx : Context) : M W error :=
  external (CallWork ctx) (f ctx).

(** func Tx(ctx context.Context, f func(ctx context.Context) error) error *)
Definition Tx (ctx : Context) (f : Context -> W -> error * W) : M W error :=
  let '(db, ok) := getDB ctx in
  if negb ok then ret errMissingDB else
  let '(txer, ok) := assertBeginTxer db in
  if negb ok then ret errCantTx else
  '(tx, err) <- BeginTx txer ctx None ;;
  if negb (isNil err) then ret err else
  err <- call f (With ctx (Some (sqlTx tx))) ;;
  if negb (isNil err) then
    _ <- Rollback_ tx ;;
    if error_eqb err Rollback then ret nil_error else
    ret err
  else
  Commit tx.

(** func Exec(ctx, query, args...): returns a sql.Result and an error *)
Definition Exec (ctx : Context) (query : string) (args : list Any) : M W (Result * error) :=
  let '(db, ok) := getDB ctx in
  if negb ok then ret (None, errMissingDB) else
  ExecContext db ctx query args.

(** func Query(ctx, query, args...): returns a *sql.Rows and an error *)
Definition Query (ctx : Context) (query : string) (args : list Any) : M W (Rows * error) :=
  let '(db, ok) := getDB ctx in
  if negb ok then ret (None, errMissingDB) else
  QueryContext db ctx query args.

(** func QueryRow(ctx, query, args...): returns a *sql.Row *)
Definition QueryRow (ctx : Context) (query : string) (args : list Any) : M W (option sqlRow) :=
  let '(db, ok) := getDB ctx in
  if negb ok then ret (intoDBRow {| err := errMissingDB; rows := None |}) else
  QueryRowContext db ctx query args.

(** Modelled from the spec: the Scan method of *sql.Row belongs to database/sql, not
    to src/.  Per the spec the row's "get value" operation "checks and
    returns a stored error first"; otherwise the row set is read by the
    collaborator. *)
Definition Scan (r : option sqlRow) (dest : list Any) : M W error :=
  match r with
  | None => panic nilDeref
  | Some r =>
      if negb (isNil (sqlRow_err r)) then ret (sqlRow_err r) else
      external (CallRowScan (sqlRow_rows r) dest) (sql_RowScan drv (sqlRow_rows r) dest)
  end.

(** The calls of one [Tx] whose BeginTx succeeded, up to the terminal
    action. *)
Definition begun (h : Handle) (ctx : Context) (tx : nat) : list Call :=
  [CallBeginTx h ctx None; CallWork (With ctx (Some (sqlTx tx)))].

End Ctxdb.

(** Classification of logged calls. *)
Definition isBegin (c : Call) : bool :=
  match c with CallBeginTx _ _ _ => true | _ => false end.
Definition isWork (c : Call) : bool :=
  match c with CallWork _ => true | _ => false end.
Definition isTerminal (c : Call) : bool :=
  match c with CallCommit _ | CallRollback _ => true | _ => false end.
Definition count (p : Call -> bool) (l : list Call) : nat :=
  List.length (filter p l).

(** Contexts other code derives from one it was given: [context.WithValue]
    under a key of its own ([connKey] is an unexported type, so no other
    package can build that key), or [context.WithCancel] and its kin. *)
Inductive Derivation : Type :=
| withValue (k : nat) (v : Any)
| withCancel.

Definition derive1 (ctx : Context) (d : Derivation) : Context :=
  match d with
  | withValue k v => WithValue ctx (otherKey k) v
  | withCancel => cancelCtx ctx
  end.

(** The descendant reached by the derivations [ds], first one first. *)
Definition derive (ds : list Derivation) (ctx : Context) : Context :=
  fold_left derive1 ds ctx.

(* ================================================================== *)
(** ** A small collaborator to run the package against *)

Module Demo.

(** The world is the journal of what reached the database. *)
Definition World : Type := list string.

Definition errBusy : error := Some (errorString 10 "connection busy").
Definition errCommit : error := Some (errorString 11 "commit refused").
Definition errTxDone : error := Some (errorString 12 "transaction has already been committed or rolled back").
Definition errWork : error := Some (errorString 13 "constraint violated").
(** Same text as [Rollback], another value. *)
Definition errSameText : error := Some (errorString 14 "rolling back").
(** fmt.Errorf("giving up: %w", Rollback) *)
Definition errWrapped : error := Some (wrapError 15 "giving up: rolling back" rollback).

(** A pool begins transactions (numbered after the pool), a connection
    is busy; transaction 101 cannot be committed; every rollback
    reports an error. *)
Definition driver : Driver World := {|
  sql_ExecContext := fun _ _ q _ w => ((Some (List.length w), nil_error), w ++ [q]);
  sql_QueryContext := fun _ _ _ _ w => ((Some 0, nil_error), w);
  sql_QueryRowContext := fun _ _ _ _ w =>
    (Some {| sqlRow_err := nil_error; sqlRow_rows := Some 0 |}, w);
  sql_BeginTx := fun h _ _ w =>
    match h with
    | sqlDB p => ((100 + p, nil_error), w ++ ["BEGIN"])
    | _ => ((0, errBusy), w)
    end;
  sql_Commit := fun tx w =>
    if Nat.eqb tx 101 then (errCommit, w ++ ["COMMIT refused"])
    else (nil_error, w ++ ["COMMIT"]);
  sql_Rollback := fun _ w => (errTxDone, w ++ ["ROLLBACK"]);
  sql_RowScan := fun _ _ w => (nil_error, w)
|}.

(** Work functions: insert and return the given error. *)
Definition work (e : error) : Context -> World -> error * World :=
  fun _ w => (e, w ++ ["INSERT"]).

Definition s0 : State World := {| world := []; calls := [] |}.

Definition ctxPool (p : nat) : Context :=
  With (valueCtx backgroundCtx (otherKey 7) (anyOther 0 42)) (Some (sqlDB p)).
Definition ctxConn : Context := With backgroundCtx (Some (sqlConn 3)).
Definition ctxTx : Context := With (ctxPool 0) (Some (sqlTx 100)).
Definition ctxBare : Context := cancelCtx (valueCtx backgroundCtx (otherKey 7) (anyOther 0 42)).

(** A pool's transaction 100 after the work function inserted and the
    transaction was rolled back, resp. committed. *)
Definition rolledBack : State World :=
  {| world := ["BEGIN"; "INSERT"; "ROLLBACK"];
     calls := begun (sqlDB 0) (ctxPool 0) 100 ++ [CallRollback 100] |}.

Definition committed (p : nat) (last : string) : State World :=
  {| world := ["BEGIN"; "INSERT"; last];
     calls := begun (sqlDB p) (ctxPool p) (100 + p) ++ [CallCommit (100 + p)] |}.

(** A request context derived from the pool's: a request id, a deadline,
    a trace id. *)
Definition ctxRequest : Context :=
  derive [withValue 1 (anyOther 1 77); withCancel; withValue 2 (anyOther 1 5)] (ctxPool 0).

(** A work function that does nothing and reports [e]. *)
Definition idle (e : error) : Context -> World -> error * World :=
  fun _ w => (e, w).

End Demo.

(* ================================================================== *)
(** ** Properties *)

Section Properties.
Variable W : Type.
Variable drv : Driver W.

(** *** The paths through [Tx] *)

Lemma error_eqb_eq (a b : error) : error_eqb a b = true <-> a = b.
Proof.
  destruct a as [x|], b as [y|]; simpl; try (split; congruence).
  destruct (errorValue_eq_dec x y); split; congruence.
Qed.

Lemma error_eqb_neq (a b : error) : error_eqb a b = false <-> a <> b.
Proof.
  rewrite <- error_eqb_eq. destruct (error_eqb a b); split; congruence.
Qed.


Lemma getDB_false_nil ctx db : getDB ctx = (db, false) -> db = None.
Proof.
  unfold getDB, assertDatabaser. destruct (Value ctx connKey); intros E; inversion E; auto.
Qed.

Section Begun.
Variables (ctx : Context) (f : Context -> W -> error * W) (s : State W).
Variables (h : Handle) (tx : nat) (w1 : W).
Hypothesis Hdb : getDB ctx = (Some h, true).
Hypothesis Hcap : implementsBeginTx h = true.

(** [Tx] up to the result of BeginTx. *)
Lemma Tx_to_begin (e : error) :
  sql_BeginTx drv h ctx None (world s) = ((tx, e), w1) ->
  Tx drv ctx f s =
  (if negb (isNil e) then ret e else
   err <- call f (With ctx (Some (sqlTx tx))) ;;
   if negb (isNil err) then
     _ <- Rollback_ drv tx ;;
     if error_eqb err Rollback then ret nil_error else ret err
   else Commit drv tx)
    {| world := w1; calls := calls s ++ [CallBeginTx h ctx None] |}.
Proof.
  intros Hb. unfold Tx. rewrite Hdb. cbn [negb].
  unfold assertBeginTxer. rewrite Hcap. cbn [negb].
  unfold bind at 1. unfold BeginTx, external. rewrite Hb. reflexivity.
Qed.

Hypothesis Hbegin : sql_BeginTx drv h ctx None (world s) = ((tx, nil_error), w1).

(** The work function failed with [e]: rollback, result dropped. *)
Lemma Tx_work_failed (e : errorValue) (w2 : W) :
  f (With ctx (Some (sqlTx tx))) w1 = (Some e, w2) ->
  Tx drv ctx f s =
  (returned (if error_eqb (Some e) Rollback then nil_error else Some e),
   {| world := snd (sql_Rollback drv tx w2);
      calls := calls s ++ begun h ctx tx ++ [CallRollback tx] |}).
Proof.
  intros Hf. rewrite (Tx_to_begin Hbegin). cbn [isNil nil_error negb].
  unfold bind, call, Rollback_, external. cbn [world calls]. rewrite Hf.
  cbn [isNil negb world calls].
  destruct (sql_Rollback drv tx w2) as [rb w3]. cbn [snd].
  rewrite <- !app_assoc. cbn [app begun].
  destruct (error_eqb (Some e) Rollback); reflexivity.
Qed.

(** The work function returned nil: commit, result returned. *)
Lemma Tx_work_succeeded (w2 : W) :
  f (With ctx (Some (sqlTx tx))) w1 = (nil_error, w2) ->
  Tx drv ctx f s =
  (returned (fst (sql_Commit drv tx w2)),
   {| world := snd (sql_Commit drv tx w2);
      calls := calls s ++ begun h ctx tx ++ [CallCommit tx] |}).
Proof.
  intros Hf. rewrite (Tx_to_begin Hbegin). cbn [isNil nil_error negb].
  unfold bind, call, Commit, external. cbn [world calls]. rewrite Hf.
  cbn [isNil nil_error negb world calls].
  destruct (sql_Commit drv tx w2) as [c w3]. cbn [fst snd].
  rewrite <- !app_assoc. reflexivity.
Qed.
End Begun.





(** With a handle in the context the helpers delegate: one call on the
    handle, same arguments, its results handed back as they are. *)
Lemma Exec_delegates ctx query args s h :
  getDB ctx = (Some h, true) ->
  Exec drv ctx query args s =
  (returned (fst (sql_ExecContext drv h ctx query args (world s))),
   {| world := snd (sql_ExecContext drv h ctx query args (world s));
      calls := calls s ++ [CallExecContext h ctx query args] |}).
Proof.
  intros Hdb. unfold Exec. rewrite Hdb. cbn [negb]. unfold ExecContext, external.
  destruct (sql_ExecContext drv h ctx query args (world s)). reflexivity.
Qed.

(* ---------------------------------------------------------------- *)
(** *** The work function failed *)

(** C1. On a context carrying a begin-capable handle whose BeginTx
    succeeds: when the work function returns [Rollback], [Tx] calls
    Rollback on the transaction, ignores what that call returns ([rb],
    arbitrary) and returns nil.  The test is on the value, not on its
    text: an error that is not [Rollback] but prints the same text is
    returned to the caller. *)
Theorem Tx_Rollback_absorbed ctx f s h tx w1 w2 rb w3 :
  getDB ctx = (Some h, true) ->
  implementsBeginTx h = true ->
  sql_BeginTx drv h ctx None (world s) = ((tx, nil_error), w1) ->
  sql_Rollback drv tx w2 = (rb, w3) ->
  (f (With ctx (Some (sqlTx tx))) w1 = (Rollback, w2) ->
   Tx drv ctx f s =
   (returned nil_error,
    {| world := w3; calls := calls s ++ begun h ctx tx ++ [CallRollback tx] |}))
  /\
  (forall e : errorValue,
      Error e = Error rollback -> e <> rollback ->
      f (With ctx (Some (sqlTx tx))) w1 = (Some e, w2) ->
      Tx drv ctx f s =
      (returned (Some e),
       {| world := w3; calls := calls s ++ begun h ctx tx ++ [CallRollback tx] |})).
Proof.
  intros Hdb Hcap Hb Hrb. split.
  - intros Hf. rewrite (Tx_work_failed ctx f s Hdb Hcap Hb Hf), Hrb. reflexivity.
  - intros e _ Hne Hf. rewrite (Tx_work_failed ctx f s Hdb Hcap Hb Hf), Hrb.
    replace (error_eqb (Some e) Rollback) with false; [reflexivity|].
    symmetry. apply error_eqb_neq. unfold Rollback. congruence.
Qed.

(** C2. On a context carrying a begin-capable handle whose BeginTx
    succeeds: when the work function returns a non-nil error [e] other
    than [Rollback], [Tx] calls Rollback on the transaction and returns
    [e] itself, whatever the rollback returned ([rb], nil or not). *)
Theorem Tx_work_error_unchanged ctx f s h tx w1 e w2 rb w3 :
  getDB ctx = (Some h, true) ->
  implementsBeginTx h = true ->
  sql_BeginTx drv h ctx None (world s) = ((tx, nil_error), w1) ->
  f (With ctx (Some (sqlTx tx))) w1 = (Some e, w2) ->
  Some e <> Rollback ->
  sql_Rollback drv tx w2 = (rb, w3) ->
  Tx drv ctx f s =
  (returned (Some e),
   {| world := w3; calls := calls s ++ begun h ctx tx ++ [CallRollback tx] |}).
Proof.
  intros Hdb Hcap Hb Hf Hne Hrb.
  rewrite (Tx_work_failed ctx f s Hdb Hcap Hb Hf), Hrb.
  apply error_eqb_neq in Hne. rewrite Hne. reflexivity.
Qed.

(** C9. [Tx] compares the work function's error with [Rollback] by [==]
    and does not unwrap: every error that is not [==] to [Rollback] is
    rolled back and returned as it is, and that includes every
    [wrapError], also one wrapping [Rollback], for which [errors.Is]
    would answer true. *)
Theorem Tx_wrapped_Rollback_surfaced ctx f s h tx w1 e w2 :
  getDB ctx = (Some h, true) ->
  implementsBeginTx h = true ->
  sql_BeginTx drv h ctx None (world s) = ((tx, nil_error), w1) ->
  f (With ctx (Some (sqlTx tx))) w1 = (Some e, w2) ->
  let surfaced :=
    Tx drv ctx f s =
    (returned (Some e),
     {| world := snd (sql_Rollback drv tx w2);
        calls := calls s ++ begun h ctx tx ++ [CallRollback tx] |}) in
  (error_eqb (Some e) Rollback = false -> surfaced) /\
  (forall p msg inner, e = wrapError p msg inner -> surfaced) /\
  (forall p msg, errorsIs (Some (wrapError p msg rollback)) Rollback = true).
Proof.
  intros Hdb Hcap Hb Hf surfaced. subst surfaced.
  rewrite (Tx_work_failed ctx f s Hdb Hcap Hb Hf). repeat split.
  - intros ->. reflexivity.
  - intros p msg inner ->. reflexivity.
Qed.

(* ---------------------------------------------------------------- *)
(** *** The work function succeeded *)

(** C3. On a context carrying a begin-capable handle whose BeginTx
    succeeds: when the work function returns nil, [Tx] calls Commit on
    the transaction and returns what Commit returned, nil or the
    commit's error. *)
Theorem Tx_nil_commits ctx f s h tx w1 w2 c w3 :
  getDB ctx = (Some h, true) ->
  implementsBeginTx h = true ->
  sql_BeginTx drv h ctx None (world s) = ((tx, nil_error), w1) ->
  f (With ctx (Some (sqlTx tx))) w1 = (nil_error, w2) ->
  sql_Commit drv tx w2 = (c, w3) ->
  Tx drv ctx f s =
  (returned c,
   {| world := w3; calls := calls s ++ begun h ctx tx ++ [CallCommit tx] |}).
Proof.
  intros Hdb Hcap Hb Hf Hc.
  rewrite (Tx_work_succeeded ctx f s Hdb Hcap Hb Hf), Hc. reflexivity.
Qed.

(* ---------------------------------------------------------------- *)
(** *** Begin, work, terminal action *)

(** C6. On a context carrying a begin-capable handle [h], [Tx] calls
    [h]'s BeginTx with nil options, and no second time; when that call
    returns a non-nil error, [Tx] returns this very error, and the work
    function has not run: the world is as BeginTx left it and BeginTx is
    the only call made. *)
Theorem Tx_BeginTx_error_verbatim ctx f s h :
  getDB ctx = (Some h, true) ->
  implementsBeginTx h = true ->
  (exists rest,
      calls (snd (Tx drv ctx f s)) = calls s ++ CallBeginTx h ctx None :: rest /\
      count isBegin rest = 0) /\
  (forall tx e w1,
      sql_BeginTx drv h ctx None (world s) = ((tx, Some e), w1) ->
      Tx drv ctx f s =
      (returned (Some e),
       {| world := w1; calls := calls s ++ [CallBeginTx h ctx None] |})).
Proof.
  intros Hdb Hcap. split.
  - destruct (sql_BeginTx drv h ctx None (world s)) as [[tx [e|]] w1] eqn:Hb.
    + rewrite (Tx_to_begin ctx f s Hdb Hcap Hb). exists []. split; reflexivity.
    + destruct (f (With ctx (Some (sqlTx tx))) w1) as [[e|] w2] eqn:Hf.
      * rewrite (Tx_work_failed ctx f s Hdb Hcap Hb Hf). cbn [snd calls begun app].
        eexists. split; reflexivity.
      * rewrite (Tx_work_succeeded ctx f s Hdb Hcap Hb Hf). cbn [snd calls begun app].
        eexists. split; reflexivity.
  - intros tx e w1 Hb. rewrite (Tx_to_begin ctx f s Hdb Hcap Hb). reflexivity.
Qed.

(** C7. When a begin-capable handle is resolved and BeginTx succeeds,
    [Tx] makes exactly three calls, in this order: the one BeginTx, one
    call of the work function on [With ctx tx], and one terminal action
    on [tx], a Commit or a Rollback.  The work function runs on the world
    BeginTx left and the terminal action on the world the work function
    left; from the derived context [getDB] resolves the transaction. *)
Theorem Tx_begin_work_terminal_once ctx f s h tx w1 e w2 :
  getDB ctx = (Some h, true) ->
  implementsBeginTx h = true ->
  sql_BeginTx drv h ctx None (world s) = ((tx, nil_error), w1) ->
  f (With ctx (Some (sqlTx tx))) w1 = (e, w2) ->
  exists r w3 new terminal,
    Tx drv ctx f s = (returned r, {| world := w3; calls := calls s ++ new |}) /\
    new = [CallBeginTx h ctx None; CallWork (With ctx (Some (sqlTx tx))); terminal] /\
    (terminal = CallCommit tx /\ sql_Commit drv tx w2 = (r, w3) \/
     terminal = CallRollback tx /\ snd (sql_Rollback drv tx w2) = w3) /\
    getDB (With ctx (Some (sqlTx tx))) = (Some (sqlTx tx), true) /\
    count isBegin new = 1 /\ count isWork new = 1 /\ count isTerminal new = 1.
Proof.
  intros Hdb Hcap Hb Hf. destruct e as [e|].
  - rewrite (Tx_work_failed ctx f s Hdb Hcap Hb Hf).
    do 3 eexists. exists (CallRollback tx).
    split; [reflexivity|]. split; [reflexivity|]. split; [right; split; reflexivity|].
    repeat split.
  - rewrite (Tx_work_succeeded ctx f s Hdb Hcap Hb Hf).
    do 3 eexists. exists (CallCommit tx).
    split; [reflexivity|]. split; [reflexivity|]. split.
    + left. split; [reflexivity|]. destruct (sql_Commit drv tx w2); reflexivity.
    + repeat split.
Qed.

(* ---------------------------------------------------------------- *)
(** *** No transaction can be started *)

(** C4. When the handle resolved from the context has no BeginTx method,
    [Tx] returns [errCantTx] and leaves the state as it was: no call is
    logged, neither of the work function nor on the handle, and the
    world is untouched.  A context made by [With] around a [*sql.Tx] is
    such a context, so [Tx] inside [Tx] does not nest. *)
Theorem Tx_without_BeginTx ctx f s h :
  getDB ctx = (Some h, true) ->
  implementsBeginTx h = false ->
  Tx drv ctx f s = (returned errCantTx, s) /\
  (forall ctx0 tx, Tx drv (With ctx0 (Some (sqlTx tx))) f s = (returned errCantTx, s)).
Proof.
  intros Hdb Hcap. split.
  - unfold Tx. rewrite Hdb. cbn [negb]. unfold assertBeginTxer. rewrite Hcap. reflexivity.
  - intros ctx0 tx. reflexivity.
Qed.

(** C5. On a context from which [getDB] finds no handle, [Exec], [Query]
    and [Tx] return [errMissingDB] and leave the state as it was (no
    call on a handle, none of the work function); [QueryRow] returns a
    non-nil row, likewise without a call, and [Scan] on that row returns
    [errMissingDB] in whatever state it is called. *)
Theorem no_handle_errMissingDB ctx db f query args s :
  getDB ctx = (db, false) ->
  Exec drv ctx query args s = (returned (None, errMissingDB), s) /\
  Query drv ctx query args s = (returned (None, errMissingDB), s) /\
  Tx drv ctx f s = (returned errMissingDB, s) /\
  exists r : sqlRow,
    QueryRow drv ctx query args s = (returned (Some r), s) /\
    forall dest s', Scan drv (Some r) dest s' = (returned errMissingDB, s').
Proof.
  intros Hdb. unfold Exec, Query, Tx, QueryRow. rewrite Hdb. cbn [negb].
  repeat split. eexists. split; [reflexivity|]. intros dest s'. reflexivity.
Qed.

(** C10. [With ctx nil] is a context from which [getDB] finds no
    handle, whatever [ctx] carries: [Exec], [Query] and [Tx] on it
    return [errMissingDB] without any call, and [QueryRow] returns the
    row built from [errMissingDB]. *)
Theorem With_nil_no_handle ctx f query args s :
  getDB (With ctx None) = (None, false) /\
  Exec drv (With ctx None) query args s = (returned (None, errMissingDB), s) /\
  Query drv (With ctx None) query args s = (returned (None, errMissingDB), s) /\
  Tx drv (With ctx None) f s = (returned errMissingDB, s) /\
  QueryRow drv (With ctx None) query args s =
  (returned (intoDBRow {| err := errMissingDB; rows := None |}), s).
Proof. repeat split. Qed.

End Properties.

(* ================================================================== *)
(** ** The handle registry *)

Lemma Key_eqb_eq (a b : Key) : Key_eqb a b = true <-> a = b.
Proof.
  destruct a as [|n], b as [|m]; simpl; try (split; congruence).
  rewrite Nat.eqb_eq. split; congruence.
Qed.

(** [getDB] after [With] sees the attached value and nothing else. *)
Lemma getDB_With (ctx : Context) (db : Databaser) :
  getDB (With ctx db) = assertDatabaser (toAny db).
Proof. reflexivity. Qed.

(** C8, as amended.  [With ctx db] is a new node over [ctx]: it answers
    every key but [connKey] as [ctx] does, and [ctx] itself is part of
    it, unchanged.  From [With ctx (Some h)], for a non-nil handle [h],
    [getDB] yields [(h, true)]; from [With ctx nil] it yields
    [(nil, false)].  An outer binding never shows through: what [getDB]
    finds depends on the nearest [With] alone, and rebinding a context
    that carried another handle gives a context that resolves
    differently from the original. *)
Theorem With_nearest_binding (ctx : Context) (h : Handle) :
  getDB (With ctx (Some h)) = (Some h, true) /\
  getDB (With ctx None) = (None, false) /\
  (forall db k, Key_eqb connKey k = false -> Value (With ctx db) k = Value ctx k) /\
  (forall db, With ctx db = valueCtx ctx connKey (toAny db)) /\
  (forall outer db, getDB (With (With ctx outer) db) = getDB (With ctx db)) /\
  (forall outer, getDB (With (With ctx outer) (Some h)) = (Some h, true)) /\
  (forall h0, getDB ctx = (Some h0, true) -> h0 <> h ->
              getDB (With ctx (Some h)) <> getDB ctx).
Proof.
  repeat split.
  - intros db k Hk. unfold With, WithValue. cbn [Value]. rewrite Hk. reflexivity.
  - intros h0 Hdb Hne. rewrite Hdb, getDB_With. cbn [toAny assertDatabaser]. congruence.
Qed.

(** C8 for every [Databaser], nil included, does not hold: the nil
    interface is attached like any other value, and resolving it reports
    false. *)
Lemma With_nil_handle_not_resolved :
  ~ (forall (ctx : Context) (db : Databaser), getDB (With ctx db) = (db, true)).
Proof.
  intros H. specialize (H backgroundCtx None). discriminate H.
Qed.

(* ================================================================== *)
(** ** The theorems at work on [Demo] *)

Module Witness.
Import Demo.

(** The work function returns [Rollback], the rollback reports
    [errTxDone]: [Tx] returns nil.  With [errSameText] instead, the
    error comes back. *)
Lemma Tx_Rollback_absorbed_witness :
  Tx driver (ctxPool 0) (work Rollback) s0 = (returned nil_error, rolledBack) /\
  Tx driver (ctxPool 0) (work errSameText) s0 = (returned errSameText, rolledBack).
Proof.
  split.
  - apply (proj1 (@Tx_Rollback_absorbed World driver (ctxPool 0) (work Rollback) s0
                    (sqlDB 0) 100 ["BEGIN"] ["BEGIN"; "INSERT"] errTxDone
                    ["BEGIN"; "INSERT"; "ROLLBACK"]
                    eq_refl eq_refl eq_refl eq_refl)).
    reflexivity.
  - apply (proj2 (@Tx_Rollback_absorbed World driver (ctxPool 0) (work errSameText) s0
                    (sqlDB 0) 100 ["BEGIN"] ["BEGIN"; "INSERT"] errTxDone
                    ["BEGIN"; "INSERT"; "ROLLBACK"]
                    eq_refl eq_refl eq_refl eq_refl)).
    + reflexivity.
    + discriminate.
    + reflexivity.
Defined.

Lemma Tx_work_error_unchanged_witness :
  Tx driver (ctxPool 0) (work errWork) s0 = (returned errWork, rolledBack).
Proof.
  apply (@Tx_work_error_unchanged World driver (ctxPool 0) (work errWork) s0
           (sqlDB 0) 100 ["BEGIN"] (errorString 13 "constraint violated")
           ["BEGIN"; "INSERT"] errTxDone ["BEGIN"; "INSERT"; "ROLLBACK"]);
    first [reflexivity | discriminate].
Defined.

Lemma Tx_wrapped_Rollback_surfaced_witness :
  errorsIs errWrapped Rollback = true /\
  Tx driver (ctxPool 0) (work errWrapped) s0 = (returned errWrapped, rolledBack).
Proof.
  split; [reflexivity|].
  apply (proj1 (@Tx_wrapped_Rollback_surfaced World driver (ctxPool 0) (work errWrapped) s0
                  (sqlDB 0) 100 ["BEGIN"] (wrapError 15 "giving up: rolling back" rollback)
                  ["BEGIN"; "INSERT"] eq_refl eq_refl eq_refl eq_refl)).
  reflexivity.
Defined.

(** Transaction 100 commits; transaction 101 does not, and the commit's
    error is what [Tx] returns. *)
Lemma Tx_nil_commits_witness :
  Tx driver (ctxPool 0) (work nil_error) s0 = (returned nil_error, committed 0 "COMMIT") /\
  Tx driver (ctxPool 1) (work nil_error) s0 = (returned errCommit, committed 1 "COMMIT refused").
Proof.
  split.
  - apply (@Tx_nil_commits World driver (ctxPool 0) (work nil_error) s0
             (sqlDB 0) 100 ["BEGIN"] ["BEGIN"; "INSERT"] nil_error
             ["BEGIN"; "INSERT"; "COMMIT"]); reflexivity.
  - apply (@Tx_nil_commits World driver (ctxPool 1) (work nil_error) s0
             (sqlDB 1) 101 ["BEGIN"] ["BEGIN"; "INSERT"] errCommit
             ["BEGIN"; "INSERT"; "COMMIT refused"]); reflexivity.
Defined.

(** The connection is busy: BeginTx fails and nothing else happens. *)
Lemma Tx_BeginTx_error_verbatim_witness :
  Tx driver ctxConn (work nil_error) s0 =
  (returned errBusy, {| world := []; calls := [CallBeginTx (sqlConn 3) ctxConn None] |}).
Proof.
  apply (proj2 (@Tx_BeginTx_error_verbatim World driver ctxConn (work nil_error) s0
                  (sqlConn 3) eq_refl eq_refl) 0 (errorString 10 "connection busy") []).
  reflexivity.
Defined.

Lemma Tx_begin_work_terminal_once_witness :
  exists r w3 new terminal,
    Tx driver (ctxPool 0) (work errWork) s0 =
    (returned r, {| world := w3; calls := calls s0 ++ new |}) /\
    new = [CallBeginTx (sqlDB 0) (ctxPool 0) None;
           CallWork (With (ctxPool 0) (Some (sqlTx 100))); terminal] /\
    (terminal = CallCommit 100 /\ sql_Commit driver 100 ["BEGIN"; "INSERT"] = (r, w3) \/
     terminal = CallRollback 100 /\ snd (sql_Rollback driver 100 ["BEGIN"; "INSERT"]) = w3) /\
    getDB (With (ctxPool 0) (Some (sqlTx 100))) = (Some (sqlTx 100), true) /\
    count isBegin new = 1 /\ count isWork new = 1 /\ count isTerminal new = 1.
Proof.
  apply (@Tx_begin_work_terminal_once World driver (ctxPool 0) (work errWork) s0
           (sqlDB 0) 100 ["BEGIN"] errWork ["BEGIN"; "INSERT"]); reflexivity.
Defined.

(** A context that carries a transaction, one that carries a handle of
    the caller's own without BeginTx. *)
Lemma Tx_without_BeginTx_witness :
  Tx driver ctxTx (work nil_error) s0 = (returned errCantTx, s0) /\
  Tx driver (With ctxBare (Some (customDB 5 false))) (work nil_error) s0 =
  (returned errCantTx, s0).
Proof.
  split.
  - apply (@Tx_without_BeginTx World driver ctxTx (work nil_error) s0 (sqlTx 100));
      reflexivity.
  - apply (@Tx_without_BeginTx World driver (With ctxBare (Some (customDB 5 false)))
             (work nil_error) s0 (customDB 5 false)); reflexivity.
Defined.

Lemma no_handle_errMissingDB_witness :
  Exec driver ctxBare "DELETE FROM t" [] s0 = (returned (None, errMissingDB), s0) /\
  Query driver ctxBare "DELETE FROM t" [] s0 = (returned (None, errMissingDB), s0) /\
  Tx driver ctxBare (work nil_error) s0 = (returned errMissingDB, s0) /\
  exists r : sqlRow,
    QueryRow driver ctxBare "DELETE FROM t" [] s0 = (returned (Some r), s0) /\
    forall dest s', Scan driver (Some r) dest s' = (returned errMissingDB, s').
Proof.
  apply (@no_handle_errMissingDB World driver ctxBare None (work nil_error)
           "DELETE FROM t" [] s0).
  reflexivity.
Defined.

Lemma With_nearest_binding_witness :
  getDB ctxTx = (Some (sqlTx 100), true) /\
  Value ctxTx (otherKey 7) = anyOther 0 42 /\
  getDB (ctxPool 0) = (Some (sqlDB 0), true).
Proof.
  destruct (With_nearest_binding (ctxPool 0) (sqlTx 100)) as (H1 & _ & H3 & _).
  split; [exact H1|]. split; [|reflexivity].
  unfold ctxTx. rewrite (H3 (Some (sqlTx 100)) (otherKey 7) eq_refl). reflexivity.
Defined.

End Witness.

(* ================================================================== *)
(** ** Delegation, composition and what the package never does *)

Section Composition.
Variable W : Type.
Variable drv : Driver W.

Lemma Query_delegates ctx query args s h :
  getDB ctx = (Some h, true) ->
  Query drv ctx query args s =
  (returned (fst (sql_QueryContext drv h ctx query args (world s))),
   {| world := snd (sql_QueryContext drv h ctx query args (world s));
      calls := calls s ++ [CallQueryContext h ctx query args] |}).
Proof.
  intros Hdb. unfold Query. rewrite Hdb. cbn [negb]. unfold QueryContext, external.
  destruct (sql_QueryContext drv h ctx query args (world s)). reflexivity.
Qed.

Lemma QueryRow_delegates ctx query args s h :
  getDB ctx = (Some h, true) ->
  QueryRow drv ctx query args s =
  (returned (fst (sql_QueryRowContext drv h ctx query args (world s))),
   {| world := snd (sql_QueryRowContext drv h ctx query args (world s));
      calls := calls s ++ [CallQueryRowContext h ctx query args] |}).
Proof.
  intros Hdb. unfold QueryRow. rewrite Hdb. cbn [negb]. unfold QueryRowContext, external.
  destruct (sql_QueryRowContext drv h ctx query args (world s)). reflexivity.
Qed.

(** X1. With a handle [h] in the context, [Exec], [Query] and [QueryRow]
    each make one call, the method of the same name on [h], with the
    context, query and arguments they were given, and return what it
    returned (result and error, or the row, nil row included) untouched. *)
Theorem helpers_delegate ctx query args s h :
  getDB ctx = (Some h, true) ->
  Exec drv ctx query args s =
  (returned (fst (sql_ExecContext drv h ctx query args (world s))),
   {| world := snd (sql_ExecContext drv h ctx query args (world s));
      calls := calls s ++ [CallExecContext h ctx query args] |}) /\
  Query drv ctx query args s =
  (returned (fst (sql_QueryContext drv h ctx query args (world s))),
   {| world := snd (sql_QueryContext drv h ctx query args (world s));
      calls := calls s ++ [CallQueryContext h ctx query args] |}) /\
  QueryRow drv ctx query args s =
  (returned (fst (sql_QueryRowContext drv h ctx query args (world s))),
   {| world := snd (sql_QueryRowContext drv h ctx query args (world s));
      calls := calls s ++ [CallQueryRowContext h ctx query args] |}).
Proof.
  intros Hdb. split; [|split].
  - apply Exec_delegates, Hdb.
  - apply Query_delegates, Hdb.
  - apply QueryRow_delegates, Hdb.
Qed.

(** X2. On [With ctx h] the helpers call [h] and nothing else, whatever
    handle [ctx] carried: inside [Tx], where the work function is handed
    [With ctx tx], its [Exec], [Query] and [QueryRow] run on the
    transaction and not on the pool the transaction came from. *)
Theorem helpers_use_nearest_handle ctx (h : Handle) query args s :
  let ctx' := With ctx (Some h) in
  Exec drv ctx' query args s =
  (returned (fst (sql_ExecContext drv h ctx' query args (world s))),
   {| world := snd (sql_ExecContext drv h ctx' query args (world s));
      calls := calls s ++ [CallExecContext h ctx' query args] |}) /\
  Query drv ctx' query args s =
  (returned (fst (sql_QueryContext drv h ctx' query args (world s))),
   {| world := snd (sql_QueryContext drv h ctx' query args (world s));
      calls := calls s ++ [CallQueryContext h ctx' query args] |}) /\
  QueryRow drv ctx' query args s =
  (returned (fst (sql_QueryRowContext drv h ctx' query args (world s))),
   {| world := snd (sql_QueryRowContext drv h ctx' query args (world s));
      calls := calls s ++ [CallQueryRowContext h ctx' query args] |}).
Proof.
  intros ctx'. assert (Hdb : getDB ctx' = (Some h, true)) by reflexivity.
  split; [|split].
  - apply Exec_delegates, Hdb.
  - apply Query_delegates, Hdb.
  - apply QueryRow_delegates, Hdb.
Qed.

(** X3. After a successful BeginTx, what [Tx] returns is decided by the
    work function's error [e] and the commit's result.  [Tx] returns nil
    exactly when [e] is nil and the commit returned nil, or [e] is
    [Rollback]: a nil from [Tx] does not tell a commit from an absorbed
    rollback.  A non-nil error from [Tx] is the work function's, or the
    commit's after the work function returned nil. *)
Theorem Tx_result_table ctx f s h tx w1 e w2 :
  getDB ctx = (Some h, true) ->
  implementsBeginTx h = true ->
  sql_BeginTx drv h ctx None (world s) = ((tx, nil_error), w1) ->
  f (With ctx (Some (sqlTx tx))) w1 = (e, w2) ->
  (fst (Tx drv ctx f s) = returned nil_error <->
   (e = nil_error /\ fst (sql_Commit drv tx w2) = nil_error) \/ e = Rollback) /\
  (forall x, fst (Tx drv ctx f s) = returned (Some x) ->
             e = Some x \/ (e = nil_error /\ fst (sql_Commit drv tx w2) = Some x)).
Proof.
  intros Hdb Hcap Hb Hf. destruct e as [x|].
  - rewrite (Tx_work_failed drv ctx f s Hdb Hcap Hb Hf). cbn [fst].
    destruct (error_eqb (Some x) Rollback) eqn:E.
    + apply error_eqb_eq in E. split.
      * split; [intros _; right; exact E | reflexivity].
      * intros y Hy. discriminate Hy.
    + apply error_eqb_neq in E. split.
      * split; [intros Hy; discriminate Hy|].
        intros [[Hn _]|Hr]; [discriminate Hn | contradiction].
      * intros y Hy. left. congruence.
  - rewrite (Tx_work_succeeded drv ctx f s Hdb Hcap Hb Hf). cbn [fst]. split.
    + split.
      * intros Hc. left. split; [reflexivity | congruence].
      * intros [[_ Hc]|Hr]; [rewrite Hc; reflexivity | discriminate Hr].
    + intros y Hy. right. split; [reflexivity | congruence].
Qed.



(** Deriving under other keys or with a cancellation leaves the binding of
    [connKey] where it was. *)
Lemma Value_derive (ds : list Derivation) (ctx : Context) :
  Value (derive ds ctx) connKey = Value ctx connKey.
Proof.
  unfold derive. revert ctx. induction ds as [|d ds IH]; intros ctx; cbn [fold_left].
  - reflexivity.
  - rewrite IH. destruct d; reflexivity.
Qed.

(** X6. A context derived from [ctx] by any number of WithValue under
    other packages' keys and WithCancel-like steps resolves as [ctx] does:
    a handle attached once is found from every descendant, a missing one
    stays missing, and a transaction context stays one, so [Tx] on any
    descendant of the context handed to a work function still returns
    [errCantTx] and does nothing. *)
Theorem handle_survives_derivation (ds : list Derivation) (ctx : Context) :
  getDB (derive ds ctx) = getDB ctx /\
  (forall h, getDB (derive ds (With ctx (Some h))) = (Some h, true)) /\
  (forall tx f s,
      Tx drv (derive ds (With ctx (Some (sqlTx tx)))) f s = (returned errCantTx, s)).
Proof.
  assert (G : forall c, getDB (derive ds c) = getDB c).
  { intros c. unfold getDB. rewrite Value_derive. reflexivity. }
  split; [apply G|]. split.
  - intros h. rewrite G. reflexivity.
  - intros tx f s. unfold Tx. rewrite G. reflexivity.
Qed.

(** X7. A work function that calls [Tx] again on the context it was
    handed, and returns what that call returned: the inner [Tx] returns
    [errCantTx] without a call and without running its work function
    [g], and the outer [Tx] rolls its transaction back, on the world as
    BeginTx left it, and returns [errCantTx]. *)
Theorem nested_Tx_aborts_outer ctx f g s h tx w1 s1 r s2 :
  getDB ctx = (Some h, true) ->
  implementsBeginTx h = true ->
  sql_BeginTx drv h ctx None (world s) = ((tx, nil_error), w1) ->
  world s1 = w1 ->
  Tx drv (With ctx (Some (sqlTx tx))) g s1 = (returned r, s2) ->
  f (With ctx (Some (sqlTx tx))) w1 = (r, world s2) ->
  r = errCantTx /\ s2 = s1 /\
  Tx drv ctx f s =
  (returned errCantTx,
   {| world := snd (sql_Rollback drv tx w1);
      calls := calls s ++ begun h ctx tx ++ [CallRollback tx] |}).
Proof.
  intros Hdb Hcap Hb Hw Hin Hf.
  assert (E : Tx drv (With ctx (Some (sqlTx tx))) g s1 = (returned errCantTx, s1))
    by reflexivity.
  rewrite E in Hin. inversion Hin; subst r s2. split; [reflexivity|]. split; [reflexivity|].
  rewrite Hw in Hf.
  rewrite (Tx_work_failed drv ctx f s Hdb Hcap Hb Hf). reflexivity.
Qed.

End Composition.

Module CompositionWitness.
Import Demo.

(** The request context carries the pool through three derivations; the
    helpers reach the pool with the request context itself. *)
Lemma helpers_delegate_witness :
  Exec driver ctxRequest "INSERT" [] s0 =
  (returned (Some 0, nil_error),
   {| world := ["INSERT"]; calls := [CallExecContext (sqlDB 0) ctxRequest "INSERT" []] |}) /\
  Query driver ctxRequest "SELECT" [] s0 =
  (returned (Some 0, nil_error),
   {| world := []; calls := [CallQueryContext (sqlDB 0) ctxRequest "SELECT" []] |}) /\
  QueryRow driver ctxRequest "SELECT" [] s0 =
  (returned (Some {| sqlRow_err := nil_error; sqlRow_rows := Some 0 |}),
   {| world := []; calls := [CallQueryRowContext (sqlDB 0) ctxRequest "SELECT" []] |}).
Proof.
  destruct (@helpers_delegate World driver ctxRequest "INSERT" [] s0 (sqlDB 0) eq_refl)
    as (HE & _ & _).
  destruct (@helpers_delegate World driver ctxRequest "SELECT" [] s0 (sqlDB 0) eq_refl)
    as (_ & HQ & HR).
  split; [exact HE|]. split; [exact HQ | exact HR].
Defined.

(** Nil from [Tx] after a commit, and nil from [Tx] after a rollback. *)
Lemma Tx_result_table_witness :
  fst (Tx driver (ctxPool 0) (work nil_error) s0) = returned nil_error /\
  fst (Tx driver (ctxPool 0) (work Rollback) s0) = returned nil_error.
Proof.
  split.
  - apply (proj1 (@Tx_result_table World driver (ctxPool 0) (work nil_error) s0
                    (sqlDB 0) 100 ["BEGIN"] nil_error ["BEGIN"; "INSERT"]
                    eq_refl eq_refl eq_refl eq_refl)).
    left. split; reflexivity.
  - apply (proj1 (@Tx_result_table World driver (ctxPool 0) (work Rollback) s0
                    (sqlDB 0) 100 ["BEGIN"] Rollback ["BEGIN"; "INSERT"]
                    eq_refl eq_refl eq_refl eq_refl)).
    right. reflexivity.
Defined.

(** The work function [idle errCantTx] is what calling [Tx] again on the
    transaction's context and returning its result comes to. *)
Lemma nested_Tx_aborts_outer_witness :
  Tx driver (ctxPool 0) (idle errCantTx) s0 =
  (returned errCantTx,
   {| world := ["BEGIN"; "ROLLBACK"];
      calls := begun (sqlDB 0) (ctxPool 0) 100 ++ [CallRollback 100] |}).
Proof.
  apply (@nested_Tx_aborts_outer World driver (ctxPool 0) (idle errCantTx) (work nil_error) s0
           (sqlDB 0) 100 ["BEGIN"] {| world := ["BEGIN"]; calls := [] |}
           errCantTx {| world := ["BEGIN"]; calls := [] |}
           eq_refl eq_refl eq_refl eq_refl eq_refl eq_refl).
Defined.

End CompositionWitness.
